(** * react-native-toolbox: the upload routine and the picker handlers

    A shallow embedding of [src/FS/index.tsx] and [src/Camera/index.tsx].

    - [JS] holds the fragment of JavaScript the two files rely on: string
      search, truthiness, completions ([return] against [throw]),
      [try]/[catch], promises with [Promise.all], [Promise.allSettled]
      and [await], and a log of callback invocations.
    - [FS] holds [determineFileOrImage], [uploadFiles],
      [handleImageLibraryResponse] and [handleFilePickerPromise].
    - [Camera] holds [handleCameraResponse].

    The statements about them follow the modules. *)

From Stdlib Require Import String List Bool Arith Lia.
Import ListNotations.
Open Scope string_scope.
Open Scope nat_scope.
Open Scope list_scope.

(* ================================================================== *)
(** * The JavaScript fragment                                          *)
(* ================================================================== *)

Module JS.

(** ** Strings *)

(** [String.prototype.includes]: [includes needle hay] is [hay.includes(needle)],
    a search for [needle] at every position of [hay], left to right. *)
Fixpoint includes (needle hay : string) : bool :=
  if String.prefix needle hay then true
  else match hay with
       | EmptyString => false
       | String _ rest => includes needle rest
       end.

(** ** Truthiness *)

(** An optional boolean property ([didCancel?: boolean]): [undefined] and
    [false] are falsy. *)
Definition truthyBool (b : option bool) : bool :=
  match b with
  | Some true => true
  | _ => false
  end.

(** An optional string: [undefined] and the empty string are falsy. *)
Definition truthyString (s : option string) : bool :=
  match s with
  | Some (String _ _) => true
  | _ => false
  end.

(** [a || b] on optional strings. *)
Definition orElse (a b : option string) : option string :=
  if truthyString a then a else b.

(** A parameter with a default value: [strict: Boolean = true]. *)
Definition withDefault {A : Type} (d : A) (a : option A) : A :=
  match a with
  | Some x => x
  | None => d
  end.

(** ** Completions *)

(** How the evaluation of a statement list ends: normally with a value, or
    abruptly with a thrown value of type [E]. For the body of an [async]
    function, [Normal v] is the promise resolved with [v] and [Throw e] the
    promise rejected with [e]. *)
Inductive Completion (E A : Type) : Type :=
| Normal (value : A)
| Throw (thrown : E).

Arguments Normal {E A} value.
Arguments Throw {E A} thrown.

Definition bindC {E A B : Type} (c : Completion E A) (k : A -> Completion E B)
  : Completion E B :=
  match c with
  | Normal v => k v
  | Throw e => Throw e
  end.

(** [try { body } catch (error) { handler error }]. *)
Definition tryCatch {E A : Type} (body : Completion E A)
  (handler : E -> Completion E A) : Completion E A :=
  match body with
  | Normal v => Normal v
  | Throw e => handler e
  end.

(** ** Promises *)

(** [PromiseSettledResult<R>], the entries [Promise.allSettled] reports. *)
Inductive PromiseSettledResult (R E : Type) : Type :=
| fulfilled (value : R)
| rejected (reason : E).

Arguments fulfilled {R E} value.
Arguments rejected {R E} reason.

(** The [status] property of a settled result. *)
Definition status {R E : Type} (r : PromiseSettledResult R E) : string :=
  match r with
  | fulfilled _ => "fulfilled"
  | rejected _ => "rejected"
  end.

(** A promise, seen from the code that awaits it: the turn of the event loop
    in which it settles, and how. *)
Record Promise (R E : Type) : Type := mkPromise {
  settledAt : nat;
  settled : PromiseSettledResult R E
}.

Arguments mkPromise {R E} settledAt settled.
Arguments settledAt {R E} _.
Arguments settled {R E} _.

Definition isRejected {R E : Type} (p : Promise R E) : bool :=
  match settled p with
  | rejected _ => true
  | fulfilled _ => false
  end.

Definition isFulfilled {R E : Type} (p : Promise R E) : bool :=
  negb (isRejected p).

(** The rejection [Promise.all] reports: the one that happens first. Two
    rejections of the same turn are taken in the order of the array. *)
Fixpoint firstRejection {R E : Type} (ps : list (Promise R E))
  : option (nat * E) :=
  match ps with
  | [] => None
  | p :: rest =>
      match settled p, firstRejection rest with
      | fulfilled _, later => later
      | rejected e, None => Some (settledAt p, e)
      | rejected e, Some (t, e') =>
          if settledAt p <=? t then Some (settledAt p, e) else Some (t, e')
      end
  end.

(** The values of the fulfilled promises, in the order of the array. *)
Fixpoint fulfilledValues {R E : Type} (ps : list (Promise R E)) : list R :=
  match ps with
  | [] => []
  | p :: rest =>
      match settled p with
      | fulfilled v => v :: fulfilledValues rest
      | rejected _ => fulfilledValues rest
      end
  end.

(** The turn in which the last promise of the array settles. *)
Definition lastSettled {R E : Type} (ps : list (Promise R E)) : nat :=
  fold_right (fun p t => Nat.max (settledAt p) t) 0 ps.

(** [Promise.all(ps)]: rejected with the first rejection as soon as it
    happens; fulfilled with all the values once every promise is. *)
Definition all {R E : Type} (ps : list (Promise R E)) : Promise (list R) E :=
  match firstRejection ps with
  | Some (t, e) => mkPromise t (rejected e)
  | None => mkPromise (lastSettled ps) (fulfilled (fulfilledValues ps))
  end.

(** [Promise.allSettled(ps)]: always fulfilled, once every promise has
    settled, with the settled results in the order of the array. *)
Definition allSettled {R E : Type} (ps : list (Promise R E))
  : Promise (list (PromiseSettledResult R E)) E :=
  mkPromise (lastSettled ps) (fulfilled (map settled ps)).

(** [await p]: the value of a fulfilled promise; the reason of a rejected
    one is thrown. *)
Definition await {R E : Type} (p : Promise R E) : Completion E R :=
  match settled p with
  | fulfilled v => Normal v
  | rejected e => Throw e
  end.

(** ** Code that calls back *)

(** A computation that may call functions of its caller: it receives the
    log of the calls made so far and returns how it ends and the extended
    log. [C] is the type of the log's entries. *)
Definition Eff (C E A : Type) : Type := list C -> Completion E A * list C.

Definition ret {C E A : Type} (v : A) : Eff C E A :=
  fun log => (Normal v, log).

Definition bind {C E A B : Type} (m : Eff C E A) (k : A -> Eff C E B)
  : Eff C E B :=
  fun log =>
    match m log with
    | (Normal v, log') => k v log'
    | (Throw e, log') => (Throw e, log')
    end.

(** A completion taken as a computation that calls nothing. *)
Definition lift {C E A : Type} (c : Completion E A) : Eff C E A :=
  fun log => (c, log).

(** [try { body } catch (error) { handler error }] around calling code. *)
Definition tryCatchEff {C E A : Type} (body : Eff C E A)
  (handler : E -> Eff C E A) : Eff C E A :=
  fun log =>
    match body log with
    | (Normal v, log') => (Normal v, log')
    | (Throw e, log') => handler e log'
    end.

(** A call: the entry goes to the end of the log, and the call ends the way
    the called function's body does. *)
Definition call {C E : Type} (entry : C) (body : Completion E unit)
  : Eff C E unit :=
  fun log => (body, log ++ [entry]).

(** A computation run from the empty log. *)
Definition run {C E A : Type} (m : Eff C E A) : Completion E A * list C :=
  m [].

End JS.

Notation "x <- m ;; k" := (JS.bind m (fun x => k))
  (at level 61, m at next level, right associativity).
Notation "m ;;; k" := (JS.bind m (fun _ => k))
  (at level 61, right associativity).

(* ================================================================== *)
(** * What the pickers report, and the callbacks of the caller         *)
(* ================================================================== *)

Module ImagePicker.

(** [ErrorCode] of react-native-image-picker, a union of three string
    literals, none of them empty: a code that is present is truthy. *)
Inductive ErrorCode : Type :=
| camera_unavailable
| permission
| others.

(** [ImagePickerResponse]; every property is optional. *)
Record ImagePickerResponse (Asset : Type) : Type := mkResponse {
  didCancel : option bool;
  errorCode : option ErrorCode;
  errorMessage : option string;
  assets : option (list Asset)
}.

Arguments mkResponse {Asset} didCancel errorCode errorMessage assets.
Arguments didCancel {Asset} _.
Arguments errorCode {Asset} _.
Arguments errorMessage {Asset} _.
Arguments assets {Asset} _.

End ImagePicker.

Module Callbacks.

Import ImagePicker.

(** What an error callback receives first: declared an [ErrorCode], it is
    also handed the value caught around a document picker. *)
Inductive ErrorValue (Reason : Type) : Type :=
| code (c : ErrorCode)
| caught (e : Reason).

Arguments code {Reason} c.
Arguments caught {Reason} e.

(** An entry of the log: which callback was called, and with what. *)
Inductive Invocation (Asset Reason : Type) : Type :=
| successCalled (assets : option (list Asset))
| failureCalled (error : ErrorValue Reason) (message : option string).

Arguments successCalled {Asset Reason} assets.
Arguments failureCalled {Asset Reason} error message.

Definition isFailureCall {Asset Reason : Type} (i : Invocation Asset Reason)
  : bool :=
  match i with
  | failureCalled _ _ => true
  | successCalled _ => false
  end.

(** [(assets: Asset[] | undefined) => void]. The caller's function is known
    by how a call of it ends. *)
Definition SuccessCallback (Asset Reason : Type) : Type :=
  option (list Asset) -> JS.Completion Reason unit.

(** [(error: ErrorCode, message?: string | undefined) => void]. *)
Definition ErrorCallback (Reason : Type) : Type :=
  ErrorValue Reason -> option string -> JS.Completion Reason unit.

(** [success(assets)]. *)
Definition callSuccess {Asset Reason : Type}
  (success : SuccessCallback Asset Reason) (assets : option (list Asset))
  : JS.Eff (Invocation Asset Reason) Reason unit :=
  JS.call (successCalled assets) (success assets).

(** [failure(error, message)]. *)
Definition callFailure {Asset Reason : Type}
  (failure : ErrorCallback Reason) (error : ErrorValue Reason)
  (message : option string)
  : JS.Eff (Invocation Asset Reason) Reason unit :=
  JS.call (failureCalled error message) (failure error message).

End Callbacks.

(* ================================================================== *)
(** * What a document picker is asked                                  *)
(* ================================================================== *)

Module DocumentPicker.

(** The values the properties of [DocumentPickerOptions] hold: booleans,
    strings and arrays of strings. *)
Inductive OptionValue : Type :=
| boolean (b : bool)
| text (s : string)
| texts (l : list string).

(** An options object: its properties in the order they were created. *)
Definition Options : Type := list (string * OptionValue).

(** [o[key]]. *)
Fixpoint getProperty (key : string) (o : Options) : option OptionValue :=
  match o with
  | [] => None
  | (k, v) :: rest => if String.eqb k key then Some v else getProperty key rest
  end.

(** [key: v] in an object literal, after the properties of [o]: a property
    that exists keeps its place and takes the new value, a new one goes to
    the end. *)
Fixpoint setProperty (key : string) (v : OptionValue) (o : Options) : Options :=
  match o with
  | [] => [(key, v)]
  | (k, w) :: rest =>
      if String.eqb k key then (k, v) :: rest
      else (k, w) :: setProperty key v rest
  end.

(** [{...options}]: spreading [undefined] gives the empty object. *)
Definition spread (options : option Options) : Options :=
  match options with
  | Some o => o
  | None => []
  end.

(** [string | string[]], the allowed types a caller may give. *)
Inductive AllowedTypes : Type :=
| oneType (s : string)
| manyTypes (l : list string).

(** [allowedTypes || fallback]: [undefined] and the empty string are falsy,
    an array is truthy also when it is empty. *)
Definition typesOr (allowedTypes : option AllowedTypes) (fallback : string)
  : OptionValue :=
  match allowedTypes with
  | Some (oneType s) => if JS.truthyString (Some s) then text s else text fallback
  | Some (manyTypes l) => texts l
  | None => text fallback
  end.

End DocumentPicker.

(* ================================================================== *)
(** * src/FS/index.tsx                                                 *)
(* ================================================================== *)

Module FS.

Import ImagePicker Callbacks.

(** The properties of [Asset & DocumentPickerResponse] that the upload
    reads. [type] is a string: it is the argument of [determineFileOrImage],
    which takes one. [fileName] comes from [Asset], where it is optional,
    and [name] from [DocumentPickerResponse], where it may be [null]. *)
Record FileData : Type := mkFileData {
  uri : string;
  type : string;
  fileName : option string;
  name : option string
}.

Record FileToUpload : Type := mkFileToUpload {
  data : FileData;
  uploadUrl : string
}.

(** The value appended to the form: [{ uri, type, name }]. *)
Record FormDataValue : Type := mkFormDataValue {
  valueUri : string;
  valueType : string;
  valueName : option string
}.

(** A [FormData]: its fields, in the order they were appended. *)
Definition FormData : Type := list (string * FormDataValue).

Definition append (form : FormData) (field : string) (value : FormDataValue)
  : FormData :=
  form ++ [(field, value)].

(** The second argument of [fetch]. *)
Record RequestInit : Type := mkRequestInit {
  method : string;
  body : FormData
}.

Definition determineFileOrImage (fileType : string) : string :=
  if JS.includes "image" fileType then "image" else "file".

(** The form the callback of [files.map] builds for one file: a new
    [FormData] with one field appended. *)
Definition formDataOf (file : FileToUpload) : FormData :=
  let form : FormData := [] in
  append form (determineFileOrImage (type (data file)))
    (mkFormDataValue (uri (data file)) (type (data file))
       (JS.orElse (fileName (data file)) (name (data file)))).

Section Upload.

(** What a request answers with, and what it is rejected with. *)
Variables Response Reason : Type.

(** The network: [fetch n url init] is the promise returned by the [n]-th
    call of [fetch] (counted from 0), which may settle differently from
    call to call, also for the same request. *)
Variable fetch : nat -> string -> RequestInit -> JS.Promise Response Reason.

Record UploadFileResponse : Type := mkUploadFileResponse {
  status : string;
  ok : bool;
  error : option Reason;
  failedUploads : option (list (JS.PromiseSettledResult Response Reason))
}.

(** [files.map((file) => { ...; return fetch(file.uploadUrl, ...) })], when
    [n] calls of [fetch] were made before. *)
Fixpoint mapFetch (n : nat) (files : list FileToUpload)
  : list (JS.Promise Response Reason) :=
  match files with
  | [] => []
  | file :: rest =>
      fetch n (uploadUrl file) (mkRequestInit "POST" (formDataOf file))
        :: mapFetch (S n) rest
  end.

(** An [async] function: [Normal r] is the returned promise resolved with
    [r], [Throw e] the returned promise rejected with [e]. *)
Definition uploadFiles (files : list FileToUpload) (strict : option bool)
  : JS.Completion Reason UploadFileResponse :=
  let strict := JS.withDefault true strict in
  let promises := mapFetch 0 files in
  if strict then
    JS.tryCatch
      (JS.bindC (JS.await (JS.all promises)) (fun _ =>
         JS.Normal (mkUploadFileResponse "ALL_FILES_UPLOADED" true None None)))
      (fun error =>
         JS.Normal
           (mkUploadFileResponse "AN_UPLOAD_FAILED" false (Some error) None))
  else
    JS.bindC (JS.await (JS.allSettled promises)) (fun resolves =>
      let rejecteds :=
        filter (fun resolve => String.eqb (JS.status resolve) "rejected")
          resolves in
      if length rejecteds =? length resolves then
        JS.Normal
          (mkUploadFileResponse "ONE_OR_MORE_UPLOADS_FAILED" false None
             (Some rejecteds))
      else
        JS.Normal
          (mkUploadFileResponse "ONE_OR_MORE_UPLOADS_FAILED" true None
             (Some rejecteds))).

End Upload.

Arguments mkUploadFileResponse {Response Reason} status ok error failedUploads.
Arguments status {Response Reason} _.
Arguments ok {Response Reason} _.
Arguments error {Response Reason} _.
Arguments failedUploads {Response Reason} _.
Arguments mapFetch {Response Reason} fetch n files.
Arguments uploadFiles {Response Reason} fetch files strict.

Section Pickers.

(** The picked items, and the values a picker may throw. *)
Variables Asset Reason : Type.

(** [DocumentPicker.isCancel], of react-native-document-picker. *)
Variable isCancel : Reason -> bool.

Definition handleImageLibraryResponse
  (success : SuccessCallback Asset Reason) (failure : ErrorCallback Reason)
  (response : ImagePickerResponse Asset)
  : JS.Eff (Invocation Asset Reason) Reason unit :=
  let assets := assets response in
  let didCancel := didCancel response in
  let errorCode := errorCode response in
  let errorMessage := errorMessage response in
  if JS.truthyBool didCancel then JS.ret tt
  else
    match errorCode with
    | Some c => callFailure failure (code c) errorMessage
    | None => JS.ret tt
    end ;;;
    callSuccess success assets.

(** [failure(error)] passes no message. *)
Definition handleFilePickerPromise
  (promise : JS.Promise (list Asset) Reason)
  (success : SuccessCallback Asset Reason) (failure : ErrorCallback Reason)
  : JS.Eff (Invocation Asset Reason) Reason unit :=
  JS.tryCatchEff
    (result <- JS.lift (JS.await promise) ;;
     callSuccess success (Some result))
    (fun error =>
       if isCancel error then JS.ret tt
       else callFailure failure (caught error) None).

End Pickers.

Arguments handleImageLibraryResponse {Asset Reason} success failure response.
Arguments handleFilePickerPromise {Asset Reason} isCancel promise success failure.

Section FilePickers.

Import DocumentPicker.

Variables Asset Reason : Type.

(** [DocumentPicker.isCancel], [DocumentPicker.types.allFiles] and
    [DocumentPicker.pick], of react-native-document-picker. *)
Variable isCancel : Reason -> bool.
Variable allFiles : string.
Variable pick : Options -> JS.Promise (list Asset) Reason.

Definition openSingleFilePicker
  (successCallback : SuccessCallback Asset Reason)
  (errorCallback : ErrorCallback Reason)
  (allowedTypes : option AllowedTypes) (options : option Options)
  : JS.Eff (Invocation Asset Reason) Reason unit :=
  handleFilePickerPromise isCancel
    (pick
       (setProperty "type" (typesOr allowedTypes allFiles)
          (setProperty "allowMultiSelection" (boolean false)
             (spread options))))
    successCallback errorCallback.

Definition openMultipleFilePicker
  (successCallback : SuccessCallback Asset Reason)
  (errorCallback : ErrorCallback Reason)
  (allowedTypes : option AllowedTypes) (options : option Options)
  : JS.Eff (Invocation Asset Reason) Reason unit :=
  handleFilePickerPromise isCancel
    (pick
       (setProperty "type" (typesOr allowedTypes allFiles)
          (setProperty "allowMultiSelection" (boolean true)
             (spread options))))
    successCallback errorCallback.

End FilePickers.

Arguments openSingleFilePicker {Asset Reason} isCancel allFiles pick
  successCallback errorCallback allowedTypes options.
Arguments openMultipleFilePicker {Asset Reason} isCancel allFiles pick
  successCallback errorCallback allowedTypes options.

End FS.

(* ================================================================== *)
(** * src/Camera/index.tsx                                             *)
(* ================================================================== *)

Module Camera.

Import ImagePicker Callbacks.

Section Handler.

Variables Asset Reason : Type.

Definition handleCameraResponse
  (success : SuccessCallback Asset Reason) (failure : ErrorCallback Reason)
  (response : ImagePickerResponse Asset)
  : JS.Eff (Invocation Asset Reason) Reason unit :=
  let assets := assets response in
  let didCancel := didCancel response in
  let errorCode := errorCode response in
  let errorMessage := errorMessage response in
  if JS.truthyBool didCancel then JS.ret tt
  else
    match errorCode with
    | Some c => callFailure failure (code c) errorMessage
    | None => JS.ret tt
    end ;;;
    callSuccess success assets.

End Handler.

Arguments handleCameraResponse {Asset Reason} success failure response.

End Camera.

(* ================================================================== *)
(** * The vocabulary of the statements                                 *)
(* ================================================================== *)

(** [contains needle hay]: [needle] occurs in [hay] as a substring. *)
Definition contains (needle hay : string) : Prop :=
  exists before after : string, hay = (before ++ needle ++ after)%string.

(** The four outcomes of an upload, by the names of the data model. The
    last two carry the same status tag and differ in [ok]. *)
Definition AllSucceeded {Response Reason : Type}
  : FS.UploadFileResponse Response Reason :=
  FS.mkUploadFileResponse "ALL_FILES_UPLOADED" true None None.

Definition FailFast {Response Reason : Type} (e : Reason)
  : FS.UploadFileResponse Response Reason :=
  FS.mkUploadFileResponse "AN_UPLOAD_FAILED" false (Some e) None.

Definition PartialSuccess {Response Reason : Type}
  (failed : list (JS.PromiseSettledResult Response Reason))
  : FS.UploadFileResponse Response Reason :=
  FS.mkUploadFileResponse "ONE_OR_MORE_UPLOADS_FAILED" true None (Some failed).

Definition AllFailed {Response Reason : Type}
  (failed : list (JS.PromiseSettledResult Response Reason))
  : FS.UploadFileResponse Response Reason :=
  FS.mkUploadFileResponse "ONE_OR_MORE_UPLOADS_FAILED" false None (Some failed).

(** The requests [uploadFiles] issues for [files]. *)
Definition requests {Response Reason : Type}
  (fetch : nat -> string -> FS.RequestInit -> JS.Promise Response Reason)
  (files : list FS.FileToUpload) : list (JS.Promise Response Reason) :=
  FS.mapFetch fetch 0 files.

(** The settled results of the requests that rejected. *)
Definition failedSubset {Response Reason : Type}
  (ps : list (JS.Promise Response Reason))
  : list (JS.PromiseSettledResult Response Reason) :=
  map JS.settled (filter JS.isRejected ps).


Definition isSuccessCall {Asset Reason : Type}
  (i : Callbacks.Invocation Asset Reason) : bool :=
  negb (Callbacks.isFailureCall i).

(** Sample files, networks and callbacks. *)
Module Sample.

Import ImagePicker Callbacks.

Definition jpeg : FS.FileToUpload :=
  FS.mkFileToUpload (FS.mkFileData "a" "image/jpeg" None (Some "a.jpg"))
    "https://example.org/a".

Definition pdf : FS.FileToUpload :=
  FS.mkFileToUpload (FS.mkFileData "b" "application/pdf" (Some "b.pdf") None)
    "https://example.org/b".

Definition png : FS.FileToUpload :=
  FS.mkFileToUpload (FS.mkFileData "c" "image/png" None None)
    "https://example.org/c".

(** Every request is answered, the later ones sooner. *)
Definition allAnswer (n : nat) (url : string) (init : FS.RequestInit)
  : JS.Promise nat string :=
  JS.mkPromise (9 - n) (JS.fulfilled (200 + n)).

(** The second request is rejected, the others are answered. *)
Definition secondRejects (n : nat) (url : string) (init : FS.RequestInit)
  : JS.Promise nat string :=
  match n with
  | 1 => JS.mkPromise 3 (JS.rejected "timeout")
  | _ => JS.mkPromise 7 (JS.fulfilled (200 + n))
  end.

(** Every request is rejected, the first one last. *)
Definition allReject (n : nat) (url : string) (init : FS.RequestInit)
  : JS.Promise nat string :=
  match n with
  | 0 => JS.mkPromise 9 (JS.rejected "late")
  | _ => JS.mkPromise 3 (JS.rejected "early")
  end.

Definition returns : SuccessCallback nat string := fun _ => JS.Normal tt.

Definition reports : ErrorCallback string := fun _ _ => JS.Normal tt.

Definition complains : ErrorCallback string := fun _ _ => JS.Throw "complaint".

Definition isCancel (e : string) : bool := String.eqb e "DOCUMENT_PICKER_CANCELED".

Definition cancelled : ImagePickerResponse nat :=
  mkResponse (Some true) None None None.

Definition denied : ImagePickerResponse nat :=
  mkResponse None (Some permission) (Some "Permission denied") None.


Definition throws (e : string) : SuccessCallback nat string :=
  fun _ => JS.Throw e.

Definition picked : JS.Promise (list nat) string :=
  JS.mkPromise 2 (JS.fulfilled [10; 20]).

Definition unreadable : JS.Promise (list nat) string :=
  JS.mkPromise 2 (JS.rejected "unreadable").

Definition clean : ImagePickerResponse nat :=
  mkResponse (Some false) None None (Some [1; 2]).

(** Options that ask for the opposite of what each opener sets. *)
Definition contrary : DocumentPicker.Options :=
  [("mode", DocumentPicker.text "open");
   ("allowMultiSelection", DocumentPicker.boolean true);
   ("type", DocumentPicker.text "public.audio")].

Definition anyPick (o : DocumentPicker.Options) : JS.Promise (list nat) string :=
  picked.

End Sample.

(* ================================================================== *)
(** * Strings                                                          *)
(* ================================================================== *)

Lemma prefix_app (p s : string) :
  String.prefix p s = true <-> exists t : string, s = (p ++ t)%string.
Proof.
  revert s; induction p as [|c p IH]; intros [|d s]; simpl.
  - split; [intros _; exists ""%string; reflexivity | reflexivity].
  - split; [intros _; exists (String d s); reflexivity | reflexivity].
  - split; [discriminate | intros [t Ht]; discriminate].
  - destruct (Ascii.ascii_dec c d) as [Hcd|Hcd].
    + rewrite IH. subst d. split; intros [t Ht]; exists t.
      * now rewrite Ht.
      * now injection Ht.
    + split; [discriminate | intros [t Ht]; injection Ht; congruence].
Qed.

Lemma includes_contains (needle hay : string) :
  JS.includes needle hay = true <-> contains needle hay.
Proof.
  unfold contains. induction hay as [|c hay IH].
  - cbn [JS.includes]. destruct (String.prefix needle "") eqn:Hp.
    + apply prefix_app in Hp as [t Ht].
      split; [intros _; exists ""%string, t; exact Ht | reflexivity].
    + split; [discriminate|]. intros [a [b Hab]].
      destruct a; [|discriminate]. simpl in Hab.
      assert (String.prefix needle "" = true) by (apply prefix_app; eauto).
      congruence.
  - cbn [JS.includes]. destruct (String.prefix needle (String c hay)) eqn:Hp.
    + apply prefix_app in Hp as [t Ht].
      split; [intros _; exists ""%string, t; exact Ht | reflexivity].
    + rewrite IH. split.
      * intros [a [b Hab]]. exists (String c a), b. simpl. now rewrite Hab.
      * intros [a [b Hab]]. destruct a as [|d a].
        -- simpl in Hab.
           assert (String.prefix needle (String c hay) = true)
             by (apply prefix_app; eauto).
           congruence.
        -- simpl in Hab. injection Hab as _ Hab. eauto.
Qed.

Lemma determineFileOrImage_image (fileType : string) :
  contains "image" fileType -> FS.determineFileOrImage fileType = "image"%string.
Proof.
  intros H. apply includes_contains in H.
  unfold FS.determineFileOrImage. now rewrite H.
Qed.

Lemma determineFileOrImage_file (fileType : string) :
  ~ contains "image" fileType -> FS.determineFileOrImage fileType = "file"%string.
Proof.
  intros H. unfold FS.determineFileOrImage.
  destruct (JS.includes "image" fileType) eqn:Hi; [|reflexivity].
  apply includes_contains in Hi. contradiction.
Qed.

(* ================================================================== *)
(** * Promises                                                         *)
(* ================================================================== *)

Section PromiseFacts.

Context {R E : Type}.

Implicit Types (p q : JS.Promise R E) (ps : list (JS.Promise R E)).

Lemma isFulfilled_not_rejected p :
  JS.isFulfilled p = true <-> JS.isRejected p = false.
Proof. unfold JS.isFulfilled. now destruct (JS.isRejected p). Qed.

Lemma isRejected_reason p :
  JS.isRejected p = true <-> exists e, JS.settled p = JS.rejected e.
Proof.
  unfold JS.isRejected. destruct (JS.settled p) as [v|e].
  - split; [discriminate | intros [e He]; discriminate].
  - split; [eauto | reflexivity].
Qed.

(** Without a rejection there is no first one. *)
Lemma firstRejection_none ps :
  forallb JS.isFulfilled ps = true -> JS.firstRejection ps = None.
Proof.
  induction ps as [|p ps IH]; simpl; [reflexivity|].
  intros H. apply andb_prop in H as [Hp Hps].
  apply isFulfilled_not_rejected in Hp. unfold JS.isRejected in Hp.
  destruct (JS.settled p); [auto | discriminate].
Qed.

(** With a rejection there is a first one. *)
Lemma firstRejection_found ps :
  existsb JS.isRejected ps = true ->
  exists t e, JS.firstRejection ps = Some (t, e).
Proof.
  induction ps as [|p ps IH]; simpl; [discriminate|].
  intros H. unfold JS.isRejected in H.
  destruct (JS.settled p) as [v|e].
  - now apply IH.
  - destruct (JS.firstRejection ps) as [[t e']|]; [|eauto].
    destruct (JS.settledAt p <=? t); eauto.
Qed.

(** The first rejection is the rejection of one of the promises. *)
Lemma firstRejection_sound ps t e :
  JS.firstRejection ps = Some (t, e) ->
  exists p, In p ps /\ JS.settledAt p = t /\ JS.settled p = JS.rejected e.
Proof.
  revert t e; induction ps as [|p ps IH]; simpl; [discriminate|].
  intros t e H. destruct (JS.settled p) as [v|e0] eqn:Hp.
  - destruct (IH _ _ H) as [q [Hin Hq]]. eauto.
  - destruct (JS.firstRejection ps) as [[t' e']|].
    + destruct (JS.settledAt p <=? t').
      * injection H as <- <-. eauto.
      * injection H as <- <-. destruct (IH _ _ eq_refl) as [q [Hin Hq]]. eauto.
    + injection H as <- <-. eauto.
Qed.

(** No promise is rejected before the first rejection. *)
Lemma firstRejection_least ps t e :
  JS.firstRejection ps = Some (t, e) ->
  forall q, In q ps -> JS.isRejected q = true -> t <= JS.settledAt q.
Proof.
  revert t e; induction ps as [|p ps IH]; simpl; [discriminate|].
  intros t e H q [<-|Hin] Hq.
  - unfold JS.isRejected in Hq. destruct (JS.settled p); [discriminate|].
    destruct (JS.firstRejection ps) as [[t' e']|].
    + destruct (Nat.leb_spec (JS.settledAt p) t'); injection H as <- <-; lia.
    + injection H as <- <-. lia.
  - destruct (JS.settled p).
    + eapply IH; eauto.
    + destruct (JS.firstRejection ps) as [[t' e']|] eqn:Hps.
      * specialize (IH _ _ eq_refl q Hin Hq).
        destruct (Nat.leb_spec (JS.settledAt p) t'); injection H as <- <-; lia.
      * assert (existsb JS.isRejected ps = true) as Hex
          by (apply existsb_exists; eauto).
        apply firstRejection_found in Hex as [t' [e' He']]. congruence.
Qed.

(** [await Promise.all(ps)] returns when every promise is fulfilled. *)
Lemma await_all_fulfilled ps :
  forallb JS.isFulfilled ps = true ->
  JS.await (JS.all ps) = JS.Normal (JS.fulfilledValues ps).
Proof.
  intros H. unfold JS.all. now rewrite (firstRejection_none _ H).
Qed.

(** [await Promise.all(ps)] throws the first rejection's reason. *)
Lemma await_all_rejected ps t e :
  JS.firstRejection ps = Some (t, e) -> JS.await (JS.all ps) = JS.Throw e.
Proof. intros H. unfold JS.all. now rewrite H. Qed.

(** [await Promise.allSettled(ps)] always returns. *)
Lemma await_allSettled ps :
  JS.await (JS.allSettled ps) = JS.Normal (map JS.settled ps).
Proof. reflexivity. Qed.

(** Filtering the settled results on their status keeps the results of the
    promises that rejected. *)
Lemma filter_status_rejected ps :
  filter (fun resolve => String.eqb (JS.status resolve) "rejected")
    (map JS.settled ps)
  = failedSubset ps.
Proof.
  unfold failedSubset. induction ps as [|p ps IH]; simpl; [reflexivity|].
  unfold JS.isRejected at 1.
  destruct (JS.settled p) eqn:Hp; simpl; rewrite IH, ?Hp; reflexivity.
Qed.

Lemma failedSubset_length ps : length (failedSubset ps) <= length ps.
Proof.
  unfold failedSubset. rewrite length_map. apply filter_length_le.
Qed.

Lemma failedSubset_all ps :
  forallb JS.isRejected ps = true -> failedSubset ps = map JS.settled ps.
Proof.
  unfold failedSubset. induction ps as [|p ps IH]; simpl; [reflexivity|].
  intros H. apply andb_prop in H as [-> Hps]. simpl. now rewrite IH.
Qed.

Lemma failedSubset_none ps :
  forallb JS.isFulfilled ps = true -> failedSubset ps = [].
Proof.
  unfold failedSubset. induction ps as [|p ps IH]; simpl; [reflexivity|].
  intros H. apply andb_prop in H as [Hp Hps].
  apply isFulfilled_not_rejected in Hp. rewrite Hp. auto.
Qed.

(** One fulfilled promise makes the failed subset shorter than the array. *)
Lemma failedSubset_shorter ps :
  existsb JS.isFulfilled ps = true -> length (failedSubset ps) < length ps.
Proof.
  induction ps as [|p ps IH]; simpl; [discriminate|].
  intros H. pose proof (failedSubset_length ps) as Hle.
  unfold failedSubset in *. simpl.
  destruct (JS.isRejected p) eqn:Hp; simpl.
  - unfold JS.isFulfilled in H at 1. rewrite Hp in H. simpl in H.
    specialize (IH H). lia.
  - lia.
Qed.

End PromiseFacts.

(* ================================================================== *)
(** * uploadFiles                                                      *)
(* ================================================================== *)

Section UploadFacts.

Context {Response Reason : Type}.

Variable fetch : nat -> string -> FS.RequestInit -> JS.Promise Response Reason.

Implicit Types (files : list FS.FileToUpload).

(** One request is issued per file, in the order of the files. *)
Lemma mapFetch_length n files :
  length (FS.mapFetch fetch n files) = length files.
Proof.
  revert n; induction files as [|file files IH]; intros n; simpl; auto.
Qed.

(** The [k]-th request goes to the [k]-th file's URL, as a POST of the form
    built for that file. *)
Lemma mapFetch_nth n files k file :
  nth_error files k = Some file ->
  nth_error (FS.mapFetch fetch n files) k
  = Some (fetch (n + k) (FS.uploadUrl file)
            (FS.mkRequestInit "POST" (FS.formDataOf file))).
Proof.
  revert n k; induction files as [|f files IH]; intros n [|k]; simpl;
    try discriminate.
  - intros [= ->]. now rewrite Nat.add_0_r.
  - intros H. rewrite (IH (S n) k H). now rewrite Nat.add_succ_r.
Qed.

(** An omitted [strict] is [true]. *)
Lemma uploadFiles_default files :
  FS.uploadFiles fetch files None = FS.uploadFiles fetch files (Some true).
Proof. reflexivity. Qed.

(** The fail-fast policy, case by case. *)
Lemma uploadFiles_strict files :
  FS.uploadFiles fetch files (Some true)
  = match JS.firstRejection (requests fetch files) with
    | Some (_, e) => JS.Normal (FailFast e)
    | None => JS.Normal AllSucceeded
    end.
Proof.
  unfold FS.uploadFiles, requests, JS.all, JS.await. simpl.
  now destruct (JS.firstRejection (FS.mapFetch fetch 0 files)) as [[t e]|].
Qed.

(** The best-effort policy, case by case. *)
Lemma uploadFiles_best_effort files :
  FS.uploadFiles fetch files (Some false)
  = if length (failedSubset (requests fetch files))
         =? length (requests fetch files)
    then JS.Normal (AllFailed (failedSubset (requests fetch files)))
    else JS.Normal (PartialSuccess (failedSubset (requests fetch files))).
Proof.
  unfold FS.uploadFiles, requests. simpl JS.withDefault. cbv iota.
  rewrite await_allSettled. simpl JS.bindC.
  rewrite filter_status_rejected, length_map. reflexivity.
Qed.

(** C1. Best effort with at least one success: for a non-empty list of
    files of which at least one request is fulfilled, [uploadFiles] with
    [strict = false] resolves with the partial-success outcome, whose [ok]
    is [true] and whose [failedUploads] are the settled results of exactly
    the requests that rejected, in the order of the files; that list is
    empty when no request rejected. *)
Theorem uploadFiles_partial_success files :
  files <> [] ->
  existsb JS.isFulfilled (requests fetch files) = true ->
  FS.uploadFiles fetch files (Some false)
  = JS.Normal
      (FS.mkUploadFileResponse "ONE_OR_MORE_UPLOADS_FAILED" true None
         (Some (map JS.settled (filter JS.isRejected (requests fetch files)))))
  /\ (forall r,
        In r (map JS.settled (filter JS.isRejected (requests fetch files)))
        <-> exists p e, In p (requests fetch files)
                        /\ JS.settled p = JS.rejected e /\ r = JS.rejected e)
  /\ (forallb JS.isFulfilled (requests fetch files) = true ->
      map JS.settled (filter JS.isRejected (requests fetch files)) = []).
Proof.
  intros _ Hsome. split; [|split].
  - rewrite uploadFiles_best_effort.
    pose proof (failedSubset_shorter _ Hsome) as Hlt.
    destruct (Nat.eqb_spec (length (failedSubset (requests fetch files)))
                (length (requests fetch files))) as [Heq|_]; [lia|].
    reflexivity.
  - intros r. rewrite in_map_iff. split.
    + intros [p [Hr Hp]]. apply filter_In in Hp as [Hin Hrej].
      apply isRejected_reason in Hrej as [e He].
      exists p, e. repeat split; congruence.
    + intros [p [e [Hin [Hp ->]]]]. exists p. split; [exact Hp|].
      apply filter_In. split; [exact Hin|].
      apply isRejected_reason. eauto.
  - apply failedSubset_none.
Qed.

(** C2. Fail fast: for a non-empty list of files of which some request
    rejects, [uploadFiles] with [strict = true] resolves, and does not
    reject, with [{status: 'AN_UPLOAD_FAILED', ok: false, error}], where
    [error] is the reason of a rejected request before which no request
    rejected; the outcome has no [failedUploads], so the results of the
    other requests are not in it. *)
Theorem uploadFiles_fail_fast files :
  files <> [] ->
  existsb JS.isRejected (requests fetch files) = true ->
  exists p e,
    In p (requests fetch files)
    /\ JS.settled p = JS.rejected e
    /\ (forall q, In q (requests fetch files) -> JS.isRejected q = true ->
                  JS.settledAt p <= JS.settledAt q)
    /\ FS.uploadFiles fetch files (Some true)
       = JS.Normal
           (FS.mkUploadFileResponse "AN_UPLOAD_FAILED" false (Some e) None).
Proof.
  intros _ Hsome.
  destruct (firstRejection_found _ Hsome) as [t [e Hfirst]].
  destruct (firstRejection_sound _ _ _ Hfirst) as [p [Hin [Ht Hp]]].
  exists p, e. repeat split; auto.
  - rewrite Ht. eapply firstRejection_least; eauto.
  - rewrite uploadFiles_strict, Hfirst. reflexivity.
Qed.

(** C3. Best effort with no success: for a non-empty list of files of
    which every request rejects, [uploadFiles] with [strict = false]
    resolves with the all-failed outcome, whose [ok] is [false] and whose
    [failedUploads] are the rejected results of all the files, one per
    file and in their order; no partial-success outcome equals it. *)
Theorem uploadFiles_all_failed files :
  files <> [] ->
  forallb JS.isRejected (requests fetch files) = true ->
  FS.uploadFiles fetch files (Some false)
  = JS.Normal
      (FS.mkUploadFileResponse "ONE_OR_MORE_UPLOADS_FAILED" false None
         (Some (map JS.settled (requests fetch files))))
  /\ length (map JS.settled (requests fetch files)) = length files
  /\ (forall r, In r (map JS.settled (requests fetch files)) ->
                exists e, r = JS.rejected e)
  /\ (forall failed,
        AllFailed (map JS.settled (requests fetch files))
        <> PartialSuccess failed).
Proof.
  intros _ Hall. repeat split.
  - rewrite uploadFiles_best_effort, (failedSubset_all _ Hall).
    now rewrite length_map, Nat.eqb_refl.
  - unfold requests. now rewrite length_map, mapFetch_length.
  - intros r Hr. apply in_map_iff in Hr as [p [<- Hin]].
    apply isRejected_reason.
    rewrite forallb_forall in Hall. auto.
  - intros failed. unfold AllFailed, PartialSuccess. discriminate.
Qed.

(** C4, where the code departs from it. For the empty list, [uploadFiles]
    with [strict = true] resolves with the all-succeeded outcome, but with
    [strict = false] it resolves with the all-failed outcome: [ok] is
    [false] although the list of failed uploads is empty, because zero
    rejections out of zero requests pass the test for every request having
    rejected. *)
Theorem uploadFiles_empty_list :
  FS.uploadFiles fetch [] (Some true)
  = JS.Normal (FS.mkUploadFileResponse "ALL_FILES_UPLOADED" true None None)
  /\ FS.uploadFiles fetch [] (Some false)
     = JS.Normal
         (FS.mkUploadFileResponse "ONE_OR_MORE_UPLOADS_FAILED" false None
            (Some [])).
Proof. split; reflexivity. Qed.

(** C5. All succeed under fail fast: for a non-empty list of files of
    which every request is fulfilled, [uploadFiles] with [strict = true]
    resolves with [{status: 'ALL_FILES_UPLOADED', ok: true}]. *)
Theorem uploadFiles_all_succeeded files :
  files <> [] ->
  forallb JS.isFulfilled (requests fetch files) = true ->
  FS.uploadFiles fetch files (Some true)
  = JS.Normal (FS.mkUploadFileResponse "ALL_FILES_UPLOADED" true None None).
Proof.
  intros _ Hall.
  rewrite uploadFiles_strict, (firstRejection_none _ Hall). reflexivity.
Qed.

(** C7. No exception crosses the contract: for every list of files, every
    way the requests settle and either policy (an omitted [strict]
    included), [uploadFiles] resolves with one of the four outcomes and
    does not reject. That every payload carries a MIME-type string is the
    type of [FileData]. *)
Theorem uploadFiles_never_rejects files strict :
  (exists outcome,
     FS.uploadFiles fetch files strict = JS.Normal outcome
     /\ (outcome = AllSucceeded
         \/ (exists e, outcome = FailFast e)
         \/ (exists failed, outcome = PartialSuccess failed)
         \/ (exists failed, outcome = AllFailed failed)))
  /\ (forall e, FS.uploadFiles fetch files strict <> JS.Throw e).
Proof.
  assert (exists outcome,
     FS.uploadFiles fetch files strict = JS.Normal outcome
     /\ (outcome = AllSucceeded
         \/ (exists e, outcome = FailFast e)
         \/ (exists failed, outcome = PartialSuccess failed)
         \/ (exists failed, outcome = AllFailed failed))) as Hres.
  { destruct strict as [[|]|]; rewrite ?uploadFiles_default.
    - rewrite uploadFiles_strict.
      destruct (JS.firstRejection (requests fetch files)) as [[t e]|]; eauto 6.
    - rewrite uploadFiles_best_effort.
      destruct (_ =? _); eauto 7.
    - rewrite uploadFiles_strict.
      destruct (JS.firstRejection (requests fetch files)) as [[t e]|]; eauto 6. }
  split; [exact Hres|].
  intros e He. destruct Hres as [outcome [Hout _]]. congruence.
Qed.

End UploadFacts.

(** C6. The form field of an upload: the form built for a file has one
    field, named "image" when the file's MIME type contains the substring
    "image" and "file" when it does not; so a file of type "image/png" is
    sent in the field "image" and one of type "application/pdf" in the
    field "file". By [mapFetch_nth] this form is the body of the request
    issued for the file. *)
Theorem form_field_name :
  (forall file,
     exists field value,
       FS.formDataOf file = [(field, value)]
       /\ (contains "image" (FS.type (FS.data file)) -> field = "image"%string)
       /\ (~ contains "image" (FS.type (FS.data file)) -> field = "file"%string))
  /\ (forall file,
        FS.type (FS.data file) = "image/png"%string ->
        exists value, FS.formDataOf file = [("image"%string, value)])
  /\ (forall file,
        FS.type (FS.data file) = "application/pdf"%string ->
        exists value, FS.formDataOf file = [("file"%string, value)]).
Proof.
  split; [|split].
  - intros file. unfold FS.formDataOf, FS.append. simpl.
    eexists _, _. split; [reflexivity|].
    split; [apply determineFileOrImage_image | apply determineFileOrImage_file].
  - intros file H. unfold FS.formDataOf, FS.append. rewrite H. simpl. eauto.
  - intros file H. unfold FS.formDataOf, FS.append. rewrite H. simpl. eauto.
Qed.

Lemma form_field_name_witness :
  (exists value, FS.formDataOf Sample.png = [("image"%string, value)])
  /\ (exists value, FS.formDataOf Sample.pdf = [("file"%string, value)]).
Proof.
  destruct form_field_name as [_ [Hpng Hpdf]].
  split; [apply Hpng | apply Hpdf]; reflexivity.
Defined.

(** The scenarios of the upload, on two files. *)

Lemma uploadFiles_partial_success_witness :
  FS.uploadFiles Sample.secondRejects [Sample.jpeg; Sample.pdf] (Some false)
  = JS.Normal (PartialSuccess [JS.rejected "timeout"%string]).
Proof.
  apply (uploadFiles_partial_success Sample.secondRejects
           [Sample.jpeg; Sample.pdf]); [discriminate | reflexivity].
Defined.

Lemma uploadFiles_fail_fast_witness :
  exists p e,
    In p (requests Sample.allReject [Sample.jpeg; Sample.pdf])
    /\ JS.settled p = JS.rejected e
    /\ (forall q, In q (requests Sample.allReject [Sample.jpeg; Sample.pdf]) ->
                  JS.isRejected q = true -> JS.settledAt p <= JS.settledAt q)
    /\ FS.uploadFiles Sample.allReject [Sample.jpeg; Sample.pdf] (Some true)
       = JS.Normal
           (FS.mkUploadFileResponse "AN_UPLOAD_FAILED" false (Some e) None).
Proof.
  apply (uploadFiles_fail_fast Sample.allReject [Sample.jpeg; Sample.pdf]);
    [discriminate | reflexivity].
Defined.

Lemma uploadFiles_all_failed_witness :
  FS.uploadFiles Sample.allReject [Sample.jpeg; Sample.pdf] (Some false)
  = JS.Normal
      (AllFailed [JS.rejected "late"%string; JS.rejected "early"%string]).
Proof.
  apply (uploadFiles_all_failed Sample.allReject [Sample.jpeg; Sample.pdf]);
    [discriminate | reflexivity].
Defined.

Lemma uploadFiles_all_succeeded_witness :
  FS.uploadFiles Sample.allAnswer [Sample.jpeg; Sample.pdf] (Some true)
  = JS.Normal AllSucceeded.
Proof.
  apply (uploadFiles_all_succeeded Sample.allAnswer [Sample.jpeg; Sample.pdf]);
    [discriminate | reflexivity].
Defined.

(** Under fail fast the error is the rejection that happened first, not the
    one of the first file. *)
Example uploadFiles_first_in_time :
  FS.uploadFiles Sample.allReject [Sample.jpeg; Sample.pdf] (Some true)
  = JS.Normal (FailFast "early"%string).
Proof. reflexivity. Qed.

(** Without the [try], the rejection would cross: awaiting [Promise.all]
    throws as soon as one request rejects. *)
Example await_all_throws :
  JS.await (JS.all (requests Sample.secondRejects [Sample.jpeg; Sample.pdf]))
  = JS.Throw "timeout"%string.
Proof. reflexivity. Qed.

(* ================================================================== *)
(** * The picker handlers                                              *)
(* ================================================================== *)

Section HandlerFacts.

Import ImagePicker Callbacks.

Context {Asset Reason : Type}.

Implicit Types (success : SuccessCallback Asset Reason)
  (failure : ErrorCallback Reason) (response : ImagePickerResponse Asset)
  (log : list (Invocation Asset Reason)).

(** The camera's handler is the image library's, word for word. *)
Lemma handleCameraResponse_same success failure response :
  Camera.handleCameraResponse success failure response
  = FS.handleImageLibraryResponse success failure response.
Proof. reflexivity. Qed.

Lemma truthyBool_set (b : option bool) :
  JS.truthyBool b = true <-> b = Some true.
Proof. destruct b as [[|]|]; simpl; split; congruence. Qed.

(** A cancelled response: the handler returns at once. *)
Lemma handleImageLibraryResponse_cancelled success failure response log :
  didCancel response = Some true ->
  FS.handleImageLibraryResponse success failure response log
  = (JS.Normal tt, log).
Proof.
  intros H. unfold FS.handleImageLibraryResponse. now rewrite H.
Qed.

(** A response with an error code that is not cancelled: the error
    callback is called, and the success callback after it returned. *)
Lemma handleImageLibraryResponse_error success failure response c log :
  JS.truthyBool (didCancel response) = false ->
  errorCode response = Some c ->
  FS.handleImageLibraryResponse success failure response log
  = match failure (code c) (errorMessage response) with
    | JS.Normal _ =>
        (success (assets response),
         log ++ [failureCalled (code c) (errorMessage response);
                 successCalled (assets response)])
    | JS.Throw e =>
        (JS.Throw e, log ++ [failureCalled (code c) (errorMessage response)])
    end.
Proof.
  intros Hcancel Hcode. unfold FS.handleImageLibraryResponse.
  rewrite Hcancel, Hcode.
  unfold JS.bind, callFailure, callSuccess, JS.call.
  destruct (failure (code c) (errorMessage response)); [|reflexivity].
  now rewrite <- app_assoc.
Qed.

(** A response without an error code that is not cancelled: the success
    callback alone is called. *)
Lemma handleImageLibraryResponse_assets success failure response log :
  JS.truthyBool (didCancel response) = false ->
  errorCode response = None ->
  FS.handleImageLibraryResponse success failure response log
  = (success (assets response), log ++ [successCalled (assets response)]).
Proof.
  intros Hcancel Hcode. unfold FS.handleImageLibraryResponse.
  now rewrite Hcancel, Hcode.
Qed.

(** C8. A cancellation calls nothing: on a response of the image library
    or of the camera with [didCancel] set, the handler returns with the log
    of calls as it found it, neither callback called; and when the promise
    of a document picker rejects with a reason that [isCancel] recognises,
    [handleFilePickerPromise] resolves with the log as it found it, the
    error callback not called. *)
Theorem cancellation_calls_nothing :
  (forall success failure response log,
     didCancel response = Some true ->
     FS.handleImageLibraryResponse success failure response log
     = (JS.Normal tt, log))
  /\ (forall success failure response log,
        didCancel response = Some true ->
        Camera.handleCameraResponse success failure response log
        = (JS.Normal tt, log))
  /\ (forall (isCancel : Reason -> bool) promise success failure e log,
        JS.settled promise = JS.rejected e ->
        isCancel e = true ->
        FS.handleFilePickerPromise isCancel promise success failure log
        = (JS.Normal tt, log)).
Proof.
  split; [|split].
  - intros. now apply handleImageLibraryResponse_cancelled.
  - intros success failure response log H.
    rewrite (handleCameraResponse_same success failure response).
    now apply handleImageLibraryResponse_cancelled.
  - intros isCancel promise success failure e log Hp He.
    unfold FS.handleFilePickerPromise, JS.tryCatchEff, JS.bind, JS.lift,
      JS.await.
    now rewrite Hp, He.
Qed.

(** C9. A picker error is forwarded as reported: on a response of the
    image library or of the camera that is not cancelled and has an error
    code, the first call the handler makes is the error callback's, with
    the response's [errorCode] and [errorMessage] as they are, and the
    error callback is not called again. *)
Theorem picker_error_forwarded success failure response c :
  JS.truthyBool (didCancel response) = false ->
  errorCode response = Some c ->
  (exists rest,
     snd (JS.run (FS.handleImageLibraryResponse success failure response))
     = failureCalled (code c) (errorMessage response) :: rest
     /\ existsb isFailureCall rest = false)
  /\ (exists rest,
        snd (JS.run (Camera.handleCameraResponse success failure response))
        = failureCalled (code c) (errorMessage response) :: rest
        /\ existsb isFailureCall rest = false).
Proof.
  intros Hcancel Hcode.
  change (Camera.handleCameraResponse success failure response)
    with (FS.handleImageLibraryResponse success failure response).
  unfold JS.run.
  rewrite (handleImageLibraryResponse_error _ _ _ _ _ Hcancel Hcode).
  destruct (failure (code c) (errorMessage response)); simpl;
    split; eexists; (split; [reflexivity|]); reflexivity.
Qed.

(** C10. A picker error calls both callbacks: on a response of the image
    library or of the camera with [didCancel] falsy and an error code
    present, the handler calls the error callback and, that call having
    returned, goes on to call the success callback with the response's
    [assets], present or not; these are its two calls, in this order, and
    it ends the way the success callback does. *)
Theorem picker_error_calls_both success failure response c :
  JS.truthyBool (didCancel response) = false ->
  errorCode response = Some c ->
  failure (code c) (errorMessage response) = JS.Normal tt ->
  JS.run (FS.handleImageLibraryResponse success failure response)
  = (success (assets response),
     [failureCalled (code c) (errorMessage response);
      successCalled (assets response)])
  /\ JS.run (Camera.handleCameraResponse success failure response)
     = (success (assets response),
        [failureCalled (code c) (errorMessage response);
         successCalled (assets response)]).
Proof.
  intros Hcancel Hcode Hreturns.
  change (Camera.handleCameraResponse success failure response)
    with (FS.handleImageLibraryResponse success failure response).
  unfold JS.run.
  rewrite (handleImageLibraryResponse_error _ _ _ _ _ Hcancel Hcode), Hreturns.
  split; reflexivity.
Qed.

(** An error callback that throws ends the handler there: the success
    callback is not called. *)
Lemma picker_error_callback_throws success failure response c e :
  JS.truthyBool (didCancel response) = false ->
  errorCode response = Some c ->
  failure (code c) (errorMessage response) = JS.Throw e ->
  JS.run (FS.handleImageLibraryResponse success failure response)
  = (JS.Throw e, [failureCalled (code c) (errorMessage response)]).
Proof.
  intros Hcancel Hcode Hthrows. unfold JS.run.
  now rewrite (handleImageLibraryResponse_error _ _ _ _ _ Hcancel Hcode),
    Hthrows.
Qed.

(** A document picker that rejects with anything but a cancellation: the
    error callback receives the reason, and no message. *)
Lemma handleFilePickerPromise_error
  (isCancel : Reason -> bool) promise success failure e log :
  JS.settled promise = JS.rejected e ->
  isCancel e = false ->
  FS.handleFilePickerPromise isCancel promise success failure log
  = (failure (caught e) None, log ++ [failureCalled (caught e) None]).
Proof.
  intros Hp He.
  unfold FS.handleFilePickerPromise, JS.tryCatchEff, JS.bind, JS.lift,
    JS.await.
  now rewrite Hp, He.
Qed.

End HandlerFacts.

Lemma cancellation_calls_nothing_witness :
  JS.run (FS.handleImageLibraryResponse Sample.returns Sample.reports
            Sample.cancelled) = (JS.Normal tt, [])
  /\ JS.run (Camera.handleCameraResponse Sample.returns Sample.reports
               Sample.cancelled) = (JS.Normal tt, [])
  /\ JS.run (FS.handleFilePickerPromise Sample.isCancel
               (JS.mkPromise 1 (JS.rejected "DOCUMENT_PICKER_CANCELED"%string))
               Sample.returns Sample.reports) = (JS.Normal tt, []).
Proof.
  destruct (@cancellation_calls_nothing nat string) as [Hlib [Hcam Hdoc]].
  split; [|split].
  - apply Hlib. reflexivity.
  - apply Hcam. reflexivity.
  - apply (Hdoc Sample.isCancel _ _ _ "DOCUMENT_PICKER_CANCELED"%string);
      reflexivity.
Defined.

Lemma picker_error_forwarded_witness :
  (exists rest,
     snd (JS.run (FS.handleImageLibraryResponse Sample.returns Sample.complains
                    Sample.denied))
     = Callbacks.failureCalled (Callbacks.code ImagePicker.permission)
         (Some "Permission denied"%string) :: rest
     /\ existsb Callbacks.isFailureCall rest = false)
  /\ (exists rest,
        snd (JS.run (Camera.handleCameraResponse Sample.returns Sample.complains
                       Sample.denied))
        = Callbacks.failureCalled (Callbacks.code ImagePicker.permission)
            (Some "Permission denied"%string) :: rest
        /\ existsb Callbacks.isFailureCall rest = false).
Proof.
  apply (picker_error_forwarded Sample.returns Sample.complains Sample.denied
           ImagePicker.permission); reflexivity.
Defined.

Lemma picker_error_calls_both_witness :
  JS.run (FS.handleImageLibraryResponse Sample.returns Sample.reports
            Sample.denied)
  = (JS.Normal tt,
     [Callbacks.failureCalled (Callbacks.code ImagePicker.permission)
        (Some "Permission denied"%string);
      Callbacks.successCalled None])
  /\ JS.run (Camera.handleCameraResponse Sample.returns Sample.reports
               Sample.denied)
     = (JS.Normal tt,
        [Callbacks.failureCalled (Callbacks.code ImagePicker.permission)
           (Some "Permission denied"%string);
         Callbacks.successCalled None]).
Proof.
  apply (picker_error_calls_both Sample.returns Sample.reports Sample.denied
           ImagePicker.permission); reflexivity.
Defined.

(* ================================================================== *)
(** * More on uploadFiles                                              *)
(* ================================================================== *)

Section PromiseCounts.

Context {R E : Type}.

Implicit Types (ps qs : list (JS.Promise R E)).

Lemma forallb_isFulfilled ps :
  forallb JS.isFulfilled ps = negb (existsb JS.isRejected ps).
Proof.
  induction ps as [|p ps IH]; simpl; [reflexivity|].
  rewrite IH. unfold JS.isFulfilled. now destruct (JS.isRejected p).
Qed.

Lemma existsb_isFulfilled ps :
  existsb JS.isFulfilled ps = negb (forallb JS.isRejected ps).
Proof.
  induction ps as [|p ps IH]; simpl; [reflexivity|].
  rewrite IH. unfold JS.isFulfilled. now destruct (JS.isRejected p).
Qed.

(** Every promise is either among the failed or among the fulfilled. *)
Lemma failedSubset_fulfilledValues ps :
  length (failedSubset ps) + length (JS.fulfilledValues ps) = length ps.
Proof.
  unfold failedSubset. induction ps as [|p ps IH]; simpl; [reflexivity|].
  unfold JS.isRejected at 1. destruct (JS.settled p); simpl; lia.
Qed.

Lemma failedSubset_nil ps :
  failedSubset ps = [] <-> forallb JS.isFulfilled ps = true.
Proof.
  split; [|apply failedSubset_none].
  unfold failedSubset. induction ps as [|p ps IH]; simpl; [reflexivity|].
  unfold JS.isFulfilled at 1. destruct (JS.isRejected p); simpl;
    [discriminate | exact IH].
Qed.

Lemma firstRejection_none_iff ps :
  JS.firstRejection ps = None <-> forallb JS.isFulfilled ps = true.
Proof.
  split; [|apply firstRejection_none].
  intros Hnone. rewrite forallb_isFulfilled.
  destruct (existsb JS.isRejected ps) eqn:Hex; [|reflexivity].
  apply firstRejection_found in Hex as [t [e He]]. congruence.
Qed.



End PromiseCounts.

Section UploadMore.

Context {Response Reason : Type}.

Variable fetch : nat -> string -> FS.RequestInit -> JS.Promise Response Reason.

Implicit Types (files : list FS.FileToUpload).

(** X1. Best effort, for every list of files, the empty one included:
    [uploadFiles] with [strict = false] resolves with the status
    'ONE_OR_MORE_UPLOADS_FAILED' whatever happened, with [ok] true exactly
    when at least one request was fulfilled, without [error], and with the
    settled results of the rejected requests as [failedUploads]. *)
Theorem uploadFiles_best_effort_outcome files :
  FS.uploadFiles fetch files (Some false)
  = JS.Normal
      (FS.mkUploadFileResponse "ONE_OR_MORE_UPLOADS_FAILED"
         (existsb JS.isFulfilled (requests fetch files)) None
         (Some (map JS.settled (filter JS.isRejected (requests fetch files))))).
Proof.
  rewrite uploadFiles_best_effort.
  destruct (existsb JS.isFulfilled (requests fetch files)) eqn:Hex.
  - pose proof (failedSubset_shorter _ Hex) as Hlt.
    destruct (Nat.eqb_spec (length (failedSubset (requests fetch files)))
                (length (requests fetch files))); [lia | reflexivity].
  - rewrite existsb_isFulfilled in Hex. apply negb_false_iff in Hex.
    rewrite (failedSubset_all _ Hex), length_map, Nat.eqb_refl.
    unfold AllFailed. now rewrite <- (failedSubset_all _ Hex).
Qed.

(** X2. Fail fast, for every list of files: [uploadFiles] with
    [strict = true] resolves with an outcome whose [ok] is true exactly
    when every request was fulfilled, which never has [failedUploads], and
    in which the status 'ALL_FILES_UPLOADED' and the absence of [error]
    each go with [ok] being true. *)
Theorem uploadFiles_strict_outcome files :
  exists outcome,
    FS.uploadFiles fetch files (Some true) = JS.Normal outcome
    /\ FS.ok outcome = forallb JS.isFulfilled (requests fetch files)
    /\ FS.failedUploads outcome = None
    /\ (FS.status outcome = "ALL_FILES_UPLOADED"%string <-> FS.ok outcome = true)
    /\ (FS.error outcome = None <-> FS.ok outcome = true).
Proof.
  rewrite uploadFiles_strict.
  destruct (JS.firstRejection (requests fetch files)) as [[t e]|] eqn:Hfirst.
  - exists (FailFast e). simpl.
    assert (forallb JS.isFulfilled (requests fetch files) = false) as ->.
    { destruct (forallb JS.isFulfilled (requests fetch files)) eqn:Hall;
        [|reflexivity].
      apply firstRejection_none in Hall. congruence. }
    repeat split; discriminate.
  - exists AllSucceeded. simpl.
    apply firstRejection_none_iff in Hfirst. rewrite Hfirst.
    repeat split; reflexivity.
Qed.

(** X3. The two policies agree on full success: for a non-empty list of
    files, [uploadFiles] with [strict = true] resolves with the
    all-succeeded outcome exactly when, over the same requests, it resolves
    with [ok] true and no failed upload with [strict = false]. *)
Theorem policies_agree_on_success files :
  files <> [] ->
  FS.uploadFiles fetch files (Some true) = JS.Normal AllSucceeded
  <-> FS.uploadFiles fetch files (Some false) = JS.Normal (PartialSuccess []).
Proof.
  intros Hfiles. rewrite uploadFiles_strict, uploadFiles_best_effort.
  assert (length (requests fetch files) <> 0) as Hlen.
  { unfold requests. rewrite mapFetch_length. now destruct files. }
  split.
  - destruct (JS.firstRejection (requests fetch files)) as [[t e]|] eqn:Hfirst;
      [discriminate|]. intros _.
    apply firstRejection_none_iff in Hfirst.
    rewrite (failedSubset_none _ Hfirst). simpl.
    destruct (length (requests fetch files)); [congruence | reflexivity].
  - destruct (_ =? _) eqn:Hcmp; [discriminate|].
    intros [= Hnil]. apply failedSubset_nil in Hnil.
    now rewrite (firstRejection_none _ Hnil).
Qed.

(** X5. One request per file: [uploadFiles] issues as many requests as
    there are files, and the request for the file at position [k] is call
    number [k] of [fetch], a POST to that file's [uploadUrl] whose form has
    the one field named by [determineFileOrImage], with the file's [uri]
    and [type] and, as [name], its [fileName] unless that is absent or
    empty, and then its [name]. *)
Theorem request_of_each_file files k file :
  nth_error files k = Some file ->
  length (requests fetch files) = length files
  /\ nth_error (requests fetch files) k
     = Some (fetch k (FS.uploadUrl file)
               (FS.mkRequestInit "POST"
                  [(FS.determineFileOrImage (FS.type (FS.data file)),
                    FS.mkFormDataValue (FS.uri (FS.data file))
                      (FS.type (FS.data file))
                      match FS.fileName (FS.data file) with
                      | Some (String c s) => Some (String c s)
                      | _ => FS.name (FS.data file)
                      end)])).
Proof.
  intros Hk. unfold requests. split; [apply mapFetch_length|].
  rewrite (mapFetch_nth fetch 0 files k file Hk). simpl.
  unfold FS.formDataOf, FS.append, JS.orElse. simpl.
  now destruct (FS.fileName (FS.data file)) as [[|c s]|].
Qed.

(** X6. What [failedUploads] counts: with [strict = false], for every list
    of files the outcome has a [failedUploads] list; its length and the
    number of fulfilled requests add up to the number of files, and it is
    empty exactly when no request rejected. *)
Theorem failedUploads_count files :
  exists outcome failed,
    FS.uploadFiles fetch files (Some false) = JS.Normal outcome
    /\ FS.failedUploads outcome = Some failed
    /\ length failed + length (JS.fulfilledValues (requests fetch files))
       = length files
    /\ (failed = [] <-> forallb JS.isFulfilled (requests fetch files) = true).
Proof.
  rewrite uploadFiles_best_effort.
  assert (length (failedSubset (requests fetch files))
          + length (JS.fulfilledValues (requests fetch files))
          = length files) as Hcount.
  { rewrite failedSubset_fulfilledValues. apply mapFetch_length. }
  destruct (_ =? _); eexists _, _; (split; [reflexivity|]);
    (split; [reflexivity|]); (split; [exact Hcount|]); apply failedSubset_nil.
Qed.

End UploadMore.


Lemma policies_agree_on_success_witness :
  FS.uploadFiles Sample.allAnswer [Sample.jpeg; Sample.pdf] (Some true)
  = JS.Normal AllSucceeded
  <-> FS.uploadFiles Sample.allAnswer [Sample.jpeg; Sample.pdf] (Some false)
      = JS.Normal (PartialSuccess []).
Proof.
  apply (policies_agree_on_success Sample.allAnswer [Sample.jpeg; Sample.pdf]).
  discriminate.
Defined.

Lemma request_of_each_file_witness :
  nth_error (requests Sample.secondRejects [Sample.jpeg; Sample.pdf]) 1
  = Some (Sample.secondRejects 1 "https://example.org/b"
            (FS.mkRequestInit "POST"
               [("file"%string,
                 FS.mkFormDataValue "b" "application/pdf" (Some "b.pdf"%string))])).
Proof.
  apply (request_of_each_file Sample.secondRejects [Sample.jpeg; Sample.pdf] 1
           Sample.pdf).
  reflexivity.
Defined.


(* ================================================================== *)
(** * More on the image handlers                                       *)
(* ================================================================== *)

Section HandlerTable.

Import ImagePicker Callbacks.

Context {Asset Reason : Type}.

Implicit Types (success : SuccessCallback Asset Reason)
  (failure : ErrorCallback Reason) (response : ImagePickerResponse Asset).

(** Every case of the handler, from the empty log. *)
Lemma handleImageLibraryResponse_run success failure response :
  JS.run (FS.handleImageLibraryResponse success failure response)
  = if JS.truthyBool (didCancel response) then (JS.Normal tt, [])
    else
      match errorCode response with
      | None =>
          (success (assets response), [successCalled (assets response)])
      | Some c =>
          match failure (code c) (errorMessage response) with
          | JS.Normal _ =>
              (success (assets response),
               [failureCalled (code c) (errorMessage response);
                successCalled (assets response)])
          | JS.Throw e =>
              (JS.Throw e, [failureCalled (code c) (errorMessage response)])
          end
      end.
Proof.
  unfold JS.run.
  destruct (JS.truthyBool (didCancel response)) eqn:Hcancel.
  - apply handleImageLibraryResponse_cancelled. now apply truthyBool_set.
  - destruct (errorCode response) as [c|] eqn:Hcode.
    + now rewrite (handleImageLibraryResponse_error _ _ _ c [] Hcancel Hcode).
    + now rewrite (handleImageLibraryResponse_assets _ _ _ [] Hcancel Hcode).
Qed.

(** X7. When the error callback is called: the handler of the image
    library, and the camera's alike, calls the error callback exactly when
    the response is not cancelled and has an error code; a cancelled
    response with an error code calls nothing. *)
Theorem error_callback_called_iff success failure response :
  (existsb isFailureCall
     (snd (JS.run (FS.handleImageLibraryResponse success failure response)))
   = true
   <-> JS.truthyBool (didCancel response) = false
       /\ errorCode response <> None)
  /\ (existsb isFailureCall
        (snd (JS.run (Camera.handleCameraResponse success failure response)))
      = true
      <-> JS.truthyBool (didCancel response) = false
          /\ errorCode response <> None).
Proof.
  change (Camera.handleCameraResponse success failure response)
    with (FS.handleImageLibraryResponse success failure response).
  rewrite handleImageLibraryResponse_run.
  destruct (JS.truthyBool (didCancel response)).
  - split; (split; [discriminate | intros [H _]; discriminate]).
  - destruct (errorCode response) as [c|].
    + destruct (failure (code c) (errorMessage response)); simpl;
        split; (split; [intros _; split; [reflexivity | discriminate]
                       | reflexivity]).
    + simpl. split; (split; [discriminate | intros [_ H]; congruence]).
Qed.

(** X8. When the success callback is called: the handler of the image
    library, and the camera's alike, calls the success callback exactly
    when the response is not cancelled and the error callback, if the
    response has an error code, did not throw; the call is then the
    handler's last, the only one of the success callback, and passes the
    response's [assets]. *)
Theorem success_callback_called_iff success failure response :
  (existsb isSuccessCall
     (snd (JS.run (FS.handleImageLibraryResponse success failure response)))
   = true
   <-> JS.truthyBool (didCancel response) = false
       /\ (forall c e, errorCode response = Some c ->
                       failure (code c) (errorMessage response) <> JS.Throw e))
  /\ (existsb isSuccessCall
        (snd (JS.run (FS.handleImageLibraryResponse success failure response)))
      = true ->
      exists before,
        snd (JS.run (FS.handleImageLibraryResponse success failure response))
        = before ++ [successCalled (assets response)]
        /\ existsb isSuccessCall before = false)
  /\ JS.run (Camera.handleCameraResponse success failure response)
     = JS.run (FS.handleImageLibraryResponse success failure response).
Proof.
  split; [|split; [|reflexivity]]; rewrite handleImageLibraryResponse_run.
  - destruct (JS.truthyBool (didCancel response)).
    + split; [discriminate | intros [H _]; discriminate].
    + destruct (errorCode response) as [c|].
      * destruct (failure (code c) (errorMessage response)) as [u|e] eqn:Hf;
          simpl.
        -- split; [|reflexivity]. intros _. split; [reflexivity|].
           intros c' e' [= <-]. congruence.
        -- split; [discriminate|]. intros [_ H]. now destruct (H c e).
      * simpl. split; [|reflexivity]. intros _. split; [reflexivity|].
        discriminate.
  - destruct (JS.truthyBool (didCancel response)); [discriminate|].
    destruct (errorCode response) as [c|].
    + destruct (failure (code c) (errorMessage response)); simpl;
        [|discriminate].
      intros _. now exists [failureCalled (code c) (errorMessage response)].
    + simpl. intros _. now exists [].
Qed.

End HandlerTable.

(* ================================================================== *)
(** * The file pickers                                                 *)
(* ================================================================== *)

Section FilePickerFacts.

Import ImagePicker Callbacks.

Context {Asset Reason : Type}.

Variable isCancel : Reason -> bool.

Implicit Types (success : SuccessCallback Asset Reason)
  (failure : ErrorCallback Reason) (promise : JS.Promise (list Asset) Reason).

(** Every case of [handleFilePickerPromise], from the empty log. *)
Lemma handleFilePickerPromise_run promise success failure :
  JS.run (FS.handleFilePickerPromise isCancel promise success failure)
  = match JS.settled promise with
    | JS.fulfilled result =>
        match success (Some result) with
        | JS.Normal _ => (JS.Normal tt, [successCalled (Some result)])
        | JS.Throw e =>
            if isCancel e then (JS.Normal tt, [successCalled (Some result)])
            else (failure (caught e) None,
                  [successCalled (Some result); failureCalled (caught e) None])
        end
    | JS.rejected e =>
        if isCancel e then (JS.Normal tt, [])
        else (failure (caught e) None, [failureCalled (caught e) None])
    end.
Proof.
  unfold JS.run, FS.handleFilePickerPromise, JS.tryCatchEff, JS.bind, JS.lift,
    JS.await, callSuccess, callFailure, JS.call, JS.ret.
  destruct (JS.settled promise) as [result|e]; simpl.
  - destruct (success (Some result)) as [[]|e]; [reflexivity|].
    now destruct (isCancel e).
  - now destruct (isCancel e).
Qed.

(** X9. Picked files reach the success callback: when the picker's promise
    is fulfilled and the success callback returns,
    [handleFilePickerPromise] resolves having made one call, of the success
    callback with the picked files. *)
Theorem file_picker_success promise success failure result :
  JS.settled promise = JS.fulfilled result ->
  success (Some result) = JS.Normal tt ->
  JS.run (FS.handleFilePickerPromise isCancel promise success failure)
  = (JS.Normal tt, [successCalled (Some result)]).
Proof.
  intros Hp Hs. now rewrite handleFilePickerPromise_run, Hp, Hs.
Qed.

(** X10. A success callback that throws is inside the [try]: when the
    picker's promise is fulfilled and the success callback throws [e], the
    error callback is called next with [e] and no message, and the function
    ends the way that call does; unless [isCancel] recognises [e], and then
    [e] is dropped and the function resolves. *)
Theorem file_picker_success_throws promise success failure result e :
  JS.settled promise = JS.fulfilled result ->
  success (Some result) = JS.Throw e ->
  JS.run (FS.handleFilePickerPromise isCancel promise success failure)
  = if isCancel e then (JS.Normal tt, [successCalled (Some result)])
    else (failure (caught e) None,
          [successCalled (Some result); failureCalled (caught e) None]).
Proof.
  intros Hp Hs. now rewrite handleFilePickerPromise_run, Hp, Hs.
Qed.

(** X11. A picker failure reaches the error callback: when the picker's
    promise rejects with a reason that [isCancel] does not recognise, the
    one call made is the error callback's, with the reason and no message;
    the success callback is not called, and the function ends the way the
    error callback does. *)
Theorem file_picker_error promise success failure e :
  JS.settled promise = JS.rejected e ->
  isCancel e = false ->
  JS.run (FS.handleFilePickerPromise isCancel promise success failure)
  = (failure (caught e) None, [failureCalled (caught e) None]).
Proof.
  intros Hp He. now rewrite handleFilePickerPromise_run, Hp, He.
Qed.

(** X12. Only the error callback makes it reject: if the error callback
    does not throw when called with a caught value and no message, then
    [handleFilePickerPromise] resolves, however the picker's promise
    settles and whatever the success callback does. *)
Theorem file_picker_resolves promise success failure :
  (forall e, failure (caught e) None = JS.Normal tt) ->
  fst (JS.run (FS.handleFilePickerPromise isCancel promise success failure))
  = JS.Normal tt.
Proof.
  intros Hf. rewrite handleFilePickerPromise_run.
  destruct (JS.settled promise) as [result|e].
  - destruct (success (Some result)) as [[]|e]; [reflexivity|].
    destruct (isCancel e); [reflexivity | apply Hf].
  - destruct (isCancel e); [reflexivity | apply Hf].
Qed.

(** X13. What the error callback can be handed: whatever the promise and
    the callbacks do, [handleFilePickerPromise] calls the error callback at
    most once, and only with a caught value that [isCancel] does not
    recognise and with no message. *)
Theorem file_picker_error_calls promise success failure :
  length (filter isFailureCall
            (snd (JS.run (FS.handleFilePickerPromise isCancel promise success
                            failure)))) <= 1
  /\ (forall i,
        In i (snd (JS.run (FS.handleFilePickerPromise isCancel promise success
                             failure))) ->
        isFailureCall i = true ->
        exists e, i = failureCalled (caught e) None /\ isCancel e = false).
Proof.
  rewrite handleFilePickerPromise_run.
  destruct (JS.settled promise) as [result|e].
  - destruct (success (Some result)) as [[]|e]; simpl.
    + split; [lia|]. intros i [<-|[]]. discriminate.
    + destruct (isCancel e) eqn:He; simpl.
      * split; [lia|]. intros i [<-|[]]. discriminate.
      * split; [lia|]. intros i [<-|[<-|[]]]; [discriminate|]. eauto.
  - destruct (isCancel e) eqn:He; simpl.
    + split; [lia|]. intros i [].
    + split; [lia|]. intros i [<-|[]]. eauto.
Qed.

End FilePickerFacts.

Section OptionsFacts.

Import DocumentPicker.

(** A property that was set is read back. *)
Lemma getProperty_setProperty_same key v o :
  getProperty key (setProperty key v o) = Some v.
Proof.
  induction o as [|[k w] rest IH]; simpl.
  - now rewrite String.eqb_refl.
  - destruct (String.eqb k key) eqn:Hk; simpl; now rewrite Hk.
Qed.

(** Setting a property leaves the others as they were. *)
Lemma getProperty_setProperty_other key key' v o :
  key <> key' ->
  getProperty key' (setProperty key v o) = getProperty key' o.
Proof.
  intros Hneq. apply String.eqb_neq in Hneq.
  induction o as [|[k w] rest IH]; simpl.
  - now rewrite Hneq.
  - destruct (String.eqb_spec k key) as [->|Hk]; simpl.
    + now rewrite Hneq.
    + now rewrite IH.
Qed.

End OptionsFacts.

Section OpenerFacts.

Import ImagePicker Callbacks DocumentPicker.

Context {Asset Reason : Type}.

Variable allFiles : string.

Implicit Types (allowedTypes : option AllowedTypes) (options : option Options).

(** X14. The selection mode cannot be overridden: whatever options the
    caller passes, [openSingleFilePicker] hands the promise of a [pick]
    asked with [allowMultiSelection] false to [handleFilePickerPromise],
    and [openMultipleFilePicker] one asked with [allowMultiSelection] true;
    every option of the caller other than [allowMultiSelection] and [type]
    is passed on as it is. *)
Theorem file_pickers_selection_mode allowedTypes options :
  exists single multiple : Options,
    (forall (isCancel : Reason -> bool)
            (pick : Options -> JS.Promise (list Asset) Reason) success failure,
        FS.openSingleFilePicker isCancel allFiles pick success failure
          allowedTypes options
        = FS.handleFilePickerPromise isCancel (pick single) success failure
        /\ FS.openMultipleFilePicker isCancel allFiles pick success failure
             allowedTypes options
           = FS.handleFilePickerPromise isCancel (pick multiple) success failure)
    /\ getProperty "allowMultiSelection" single = Some (boolean false)
    /\ getProperty "allowMultiSelection" multiple = Some (boolean true)
    /\ (forall key,
          key <> "allowMultiSelection"%string -> key <> "type"%string ->
          getProperty key single = getProperty key (spread options)
          /\ getProperty key multiple = getProperty key (spread options)).
Proof.
  eexists _, _. split; [intros; split; reflexivity|].
  split; [|split].
  - rewrite getProperty_setProperty_other by discriminate.
    apply getProperty_setProperty_same.
  - rewrite getProperty_setProperty_other by discriminate.
    apply getProperty_setProperty_same.
  - intros key Hmulti Htype.
    rewrite !getProperty_setProperty_other by congruence. split; reflexivity.
Qed.

(** X15. The types a file picker is asked for: both openers ask [pick] for
    the caller's [allowedTypes] when that is a non-empty string or an
    array, an empty array included, and for [DocumentPicker.types.allFiles]
    when it is absent or the empty string; a [type] among the caller's
    options is never used. *)
Theorem file_pickers_type allowedTypes options :
  exists single multiple : Options,
    (forall (isCancel : Reason -> bool)
            (pick : Options -> JS.Promise (list Asset) Reason) success failure,
        FS.openSingleFilePicker isCancel allFiles pick success failure
          allowedTypes options
        = FS.handleFilePickerPromise isCancel (pick single) success failure
        /\ FS.openMultipleFilePicker isCancel allFiles pick success failure
             allowedTypes options
           = FS.handleFilePickerPromise isCancel (pick multiple) success failure)
    /\ getProperty "type" single
       = Some match allowedTypes with
              | Some (oneType (String c s)) => text (String c s)
              | Some (manyTypes l) => texts l
              | _ => text allFiles
              end
    /\ getProperty "type" multiple = getProperty "type" single.
Proof.
  eexists _, _. split; [intros; split; reflexivity|].
  rewrite !getProperty_setProperty_same. split; [|reflexivity].
  now destruct allowedTypes as [[[|c s]|l]|].
Qed.

(** X16. The file pickers end to end: when [pick] answers with a promise
    that rejects with a reason [isCancel] recognises, either opener
    resolves without calling a callback; when it answers with a fulfilled
    promise and the success callback returns, either opener resolves having
    called the success callback once, with the picked files. *)
Theorem file_pickers_end_to_end
  (isCancel : Reason -> bool) (pick : Options -> JS.Promise (list Asset) Reason)
  (success : SuccessCallback Asset Reason) (failure : ErrorCallback Reason)
  allowedTypes options :
  (forall e,
     (forall o, JS.settled (pick o) = JS.rejected e) ->
     isCancel e = true ->
     JS.run (FS.openSingleFilePicker isCancel allFiles pick success failure
               allowedTypes options) = (JS.Normal tt, [])
     /\ JS.run (FS.openMultipleFilePicker isCancel allFiles pick success failure
                  allowedTypes options) = (JS.Normal tt, []))
  /\ (forall result,
        (forall o, JS.settled (pick o) = JS.fulfilled result) ->
        success (Some result) = JS.Normal tt ->
        JS.run (FS.openSingleFilePicker isCancel allFiles pick success failure
                  allowedTypes options)
        = (JS.Normal tt, [successCalled (Some result)])
        /\ JS.run (FS.openMultipleFilePicker isCancel allFiles pick success
                     failure allowedTypes options)
           = (JS.Normal tt, [successCalled (Some result)])).
Proof.
  unfold FS.openSingleFilePicker, FS.openMultipleFilePicker. split.
  - intros e Hpick He.
    split; now rewrite handleFilePickerPromise_run, Hpick, He.
  - intros result Hpick Hs.
    split; now rewrite handleFilePickerPromise_run, Hpick, Hs.
Qed.

End OpenerFacts.

(** The samples, for the statements above. *)

Lemma error_callback_called_iff_witness :
  existsb Callbacks.isFailureCall
    (snd (JS.run (FS.handleImageLibraryResponse Sample.returns Sample.reports
                    Sample.denied))) = true
  <-> JS.truthyBool (ImagePicker.didCancel Sample.denied) = false
      /\ ImagePicker.errorCode Sample.denied <> None.
Proof.
  exact (proj1 (error_callback_called_iff Sample.returns Sample.reports
                  Sample.denied)).
Defined.

Lemma success_callback_called_iff_witness :
  existsb isSuccessCall
    (snd (JS.run (FS.handleImageLibraryResponse Sample.returns Sample.complains
                    Sample.denied))) = true
  <-> JS.truthyBool (ImagePicker.didCancel Sample.denied) = false
      /\ (forall c e,
            ImagePicker.errorCode Sample.denied = Some c ->
            Sample.complains (Callbacks.code c)
              (ImagePicker.errorMessage Sample.denied) <> JS.Throw e).
Proof.
  exact (proj1 (success_callback_called_iff Sample.returns Sample.complains
                  Sample.denied)).
Defined.

Lemma file_picker_success_witness :
  JS.run (FS.handleFilePickerPromise Sample.isCancel Sample.picked
            Sample.returns Sample.reports)
  = (JS.Normal tt, [Callbacks.successCalled (Some [10; 20])]).
Proof.
  apply (file_picker_success Sample.isCancel Sample.picked Sample.returns
           Sample.reports [10; 20]); reflexivity.
Defined.

Lemma file_picker_success_throws_witness :
  JS.run (FS.handleFilePickerPromise Sample.isCancel Sample.picked
            (Sample.throws "render failed") Sample.reports)
  = (JS.Normal tt,
     [Callbacks.successCalled (Some [10; 20]);
      Callbacks.failureCalled (Callbacks.caught "render failed"%string) None])
  /\ JS.run (FS.handleFilePickerPromise Sample.isCancel Sample.picked
               (Sample.throws "DOCUMENT_PICKER_CANCELED") Sample.reports)
     = (JS.Normal tt, [Callbacks.successCalled (Some [10; 20])]).
Proof.
  split.
  - apply (file_picker_success_throws Sample.isCancel Sample.picked
             (Sample.throws "render failed") Sample.reports [10; 20]
             "render failed"%string); reflexivity.
  - apply (file_picker_success_throws Sample.isCancel Sample.picked
             (Sample.throws "DOCUMENT_PICKER_CANCELED") Sample.reports [10; 20]
             "DOCUMENT_PICKER_CANCELED"%string); reflexivity.
Defined.

Lemma file_picker_error_witness :
  JS.run (FS.handleFilePickerPromise Sample.isCancel Sample.unreadable
            Sample.returns Sample.complains)
  = (JS.Throw "complaint"%string,
     [Callbacks.failureCalled (Callbacks.caught "unreadable"%string) None]).
Proof.
  apply (file_picker_error Sample.isCancel Sample.unreadable Sample.returns
           Sample.complains "unreadable"%string); reflexivity.
Defined.

Lemma file_picker_resolves_witness :
  fst (JS.run (FS.handleFilePickerPromise Sample.isCancel Sample.unreadable
                 (Sample.throws "render failed") Sample.reports))
  = JS.Normal tt.
Proof.
  apply (file_picker_resolves Sample.isCancel Sample.unreadable
           (Sample.throws "render failed") Sample.reports).
  reflexivity.
Defined.

Lemma file_picker_error_calls_witness :
  forallb
    (fun i =>
       match i with
       | Callbacks.failureCalled (Callbacks.caught e) None =>
           negb (Sample.isCancel e)
       | Callbacks.failureCalled _ _ => false
       | Callbacks.successCalled _ => true
       end)
    (snd (JS.run (FS.handleFilePickerPromise Sample.isCancel Sample.unreadable
                    Sample.returns Sample.reports))) = true
  /\ length (filter Callbacks.isFailureCall
               (snd (JS.run (FS.handleFilePickerPromise Sample.isCancel
                               Sample.unreadable Sample.returns
                               Sample.reports)))) <= 1.
Proof.
  split; [reflexivity|].
  apply (file_picker_error_calls Sample.isCancel Sample.unreadable
           Sample.returns Sample.reports).
Defined.

Lemma file_pickers_selection_mode_witness :
  exists single multiple : DocumentPicker.Options,
    DocumentPicker.getProperty "allowMultiSelection" single
    = Some (DocumentPicker.boolean false)
    /\ DocumentPicker.getProperty "allowMultiSelection" multiple
       = Some (DocumentPicker.boolean true)
    /\ DocumentPicker.getProperty "mode" single
       = Some (DocumentPicker.text "open")
    /\ JS.run (FS.openSingleFilePicker Sample.isCancel "*/*" Sample.anyPick
                 Sample.returns Sample.reports None (Some Sample.contrary))
       = JS.run (FS.handleFilePickerPromise Sample.isCancel
                   (Sample.anyPick single) Sample.returns Sample.reports).
Proof.
  destruct (@file_pickers_selection_mode nat string "*/*"%string None
              (Some Sample.contrary))
    as [single [multiple [Hcall [Hsingle [Hmultiple Hother]]]]].
  exists single, multiple. split; [exact Hsingle|]. split; [exact Hmultiple|].
  split.
  - rewrite (proj1 (Hother "mode"%string ltac:(discriminate) ltac:(discriminate))).
    reflexivity.
  - now rewrite (proj1 (Hcall Sample.isCancel Sample.anyPick Sample.returns
                          Sample.reports)).
Defined.

Lemma file_pickers_end_to_end_witness :
  JS.run (FS.openSingleFilePicker Sample.isCancel "*/*" Sample.anyPick
            Sample.returns Sample.reports None (Some Sample.contrary))
  = (JS.Normal tt, [Callbacks.successCalled (Some [10; 20])]).
Proof.
  apply (proj2 (file_pickers_end_to_end "*/*"%string Sample.isCancel
                  Sample.anyPick Sample.returns Sample.reports None
                  (Some Sample.contrary)) [10; 20]); reflexivity.
Defined.
